(** * The [Init] facade of oseelabs/ai-js over the Google GenAI SDK

    A shallow embedding of [class Init] (the wrapper around
    [@google/genai]) together with the properties of its client
    lifecycle, its credential guard, its chat-session cache and its
    pass-through operations.

    The wrapped SDK is an external collaborator: it is a parameter of the
    development ([Sdk]), a deterministic strategy that answers every call
    the facade issues.  Every call is recorded in a history, so that
    "which external calls were made, in which order, on which handle" is
    a statement about a list. *)

From stdpp Require Import gmap strings list pretty.

Set Default Proof Using "Type".

(** ** JavaScript values *)

Module Js.

(** The values that cross the facade: request payloads, configurations
    and responses.  Objects are opaque and compared by reference. *)
Inductive JsVal :=
| JUndefined
| JNull
| JBool (b : bool)
| JNum (n : Z)
| JStr (s : string)
| JObj (ref : nat).

(** The string test behind [!this._apiKey]. *)
Definition nonempty (s : string) : bool :=
  match s with
  | EmptyString => false
  | String _ _ => true
  end.

(** JavaScript's [ToBoolean], the test behind [!newUpload]. *)
Definition truthy (v : JsVal) : bool :=
  match v with
  | JUndefined | JNull => false
  | JBool b => b
  | JNum n => negb (n =? 0)%Z
  | JStr s => nonempty s
  | JObj _ => true
  end.

(** What a [throw] carries.  An [Error] object created by the facade is
    a different object from whatever the SDK throws, even when the two
    messages agree, hence the separate constructors.  [TypeError] is the
    runtime's own failure on a property read of [undefined]. *)
Inductive Error :=
| LocalError (message : string)
| TypeError
| ExternalError (payload : JsVal).

End Js.
Export Js.

(** ** The external SDK *)

(** [types/model.ts] *)
Inductive ModelVariant :=
| gemini_2_5_pro_preview_03_25
| gemini_2_0_flash
| gemini_2_0_flash_lite
| gemini_1_5_flash
| gemini_1_5_flash_8b
| gemini_1_5_pro
| gemini_embedding_exp
| imagen_3_0_generate_002.

(** [GoogleGenAIOptions]: a bag of named options. *)
Abbreviation Options := (gmap string JsVal).

(** A client handle, the result of [new GoogleGenAI(options)].  [genai_ref]
    is the object's identity (the position of the constructing call in
    the history); [genai_options] is the configuration it was built from. *)
Record GenAI := { genai_ref : nat; genai_options : Options }.

(** A chat handle, the result of [client.chats.create(...)]. *)
Record Chat := { chat_ref : nat; chat_client : nat; chat_model : ModelVariant }.

(** The operations of the model-operations interface [client.models]. *)
Inductive ModelsMethod :=
| MGenerateContent
| MGenerateContentStream
| MGenerateImages
| MGenerateVideos
| MComputeTokens
| MCountTokens
| MEmbedContent.

(** Every call the facade can issue on the SDK. *)
Inductive Call :=
| NewGoogleGenAI (options : Options)
| ModelsCall (client : nat) (method : ModelsMethod)
             (model : ModelVariant) (input config : JsVal)
| ChatsCreate (client : nat) (model : ModelVariant)
| SendMessage (chat : Chat) (message : JsVal)
| SendMessageStream (chat : Chat) (message : JsVal)
| FilesUpload (client : nat) (file config : JsVal)
| FilesGet (client : nat) (name : string) (config : JsVal)
| FilesDelete (client : nat) (name : string) (config : JsVal).

(** How the promise returned by an SDK call settles. *)
Inductive Promise :=
| Resolves (v : JsVal)
| Rejects (e : JsVal).

(** The collaborator.  Given the calls issued so far and the current one,
    [throws] says whether the call throws synchronously and [settles] how
    the promise it returns settles.  [randomUUID i] is the [i]-th value
    drawn from [crypto.randomUUID()]. *)
Record Sdk := {
  throws : list Call → Call → option JsVal;
  settles : list Call → Call → Promise;
  randomUUID : nat → string;
}.

(** ** The facade's state *)

(** [_session]: the cached pair.  The source types [chat] as [Chat], but
    [this.chat!] is [undefined] at run time when no client exists. *)
Record Session := { sess_chat : option Chat; sess_id : string }.

(** The fields of an [Init] instance. *)
Record Init := {
  _apiKey : string;
  _options : Options;
  _genai : option GenAI;
  _modelVariant : ModelVariant;
  chat : option Chat;
  _session : option Session;
}.

(** The world outside the instance: the calls issued on the SDK so far
    and the number of identifiers drawn. *)
Record World := { history : list Call; drawn : nat }.

Record State := { world : World; this : Init }.

Definition set_apiKey_field (v : string) (i : Init) : Init :=
  {| _apiKey := v; _options := _options i; _genai := _genai i;
     _modelVariant := _modelVariant i; chat := chat i; _session := _session i |}.

Definition set_options_field (o : Options) (i : Init) : Init :=
  {| _apiKey := _apiKey i; _options := o; _genai := _genai i;
     _modelVariant := _modelVariant i; chat := chat i; _session := _session i |}.

Definition set_genai_field (g : option GenAI) (i : Init) : Init :=
  {| _apiKey := _apiKey i; _options := _options i; _genai := g;
     _modelVariant := _modelVariant i; chat := chat i; _session := _session i |}.

Definition set_chat_field (c : option Chat) (i : Init) : Init :=
  {| _apiKey := _apiKey i; _options := _options i; _genai := _genai i;
     _modelVariant := _modelVariant i; chat := c; _session := _session i |}.

Definition set_session_field (s : option Session) (i : Init) : Init :=
  {| _apiKey := _apiKey i; _options := _options i; _genai := _genai i;
     _modelVariant := _modelVariant i; chat := chat i; _session := s |}.

(** ** Statements: state and exceptions *)

Inductive Completion (A : Type) :=
| Normal (a : A)
| Throw (e : Error).
Arguments Normal {A} a.
Arguments Throw {A} e.

(** A piece of synchronous code.  A [throw] keeps the writes made before
    it: nothing is rolled back. *)
Definition M (A : Type) : Type := State → State * Completion A.

Definition ret {A} (a : A) : M A := λ st, (st, Normal a).

Definition throw {A} (e : Error) : M A := λ st, (st, Throw e).

Definition bind {A B} (m : M A) (k : A → M B) : M B :=
  λ st, match m st with
        | (st', Normal a) => k a st'
        | (st', Throw e) => (st', Throw e)
        end.

Notation "'let*' x := m 'in' k" := (bind m (λ x, k))
  (at level 10, x name, m at level 100, k at level 200).
Notation "m ;; k" := (bind m (λ _, k))
  (at level 100, k at level 200, right associativity).

Definition read : M Init := λ st, (st, Normal (this st)).

Definition write (f : Init → Init) : M unit :=
  λ st, ({| world := world st; this := f (this st) |}, Normal tt).

Section Facade.

Context (sdk : Sdk).

(** Record [c] in the history; the answer is a function of the history
    before the call. *)
Definition log (c : Call) (w : World) : World :=
  {| history := history w ++ [c]; drawn := drawn w |}.

(** A call that builds an object ([new GoogleGenAI], [chats.create]):
    it throws, or it returns a fresh object whose reference is the
    position of the call. *)
Definition construct (c : Call) : M nat :=
  λ st, let h := history (world st) in
        let st' := {| world := log c (world st); this := this st |} in
        match throws sdk h c with
        | Some e => (st', Throw (ExternalError e))
        | None => (st', Normal (length h))
        end.

(** A call that returns a promise. *)
Definition request (c : Call) : M Promise :=
  λ st, let h := history (world st) in
        let st' := {| world := log c (world st); this := this st |} in
        match throws sdk h c with
        | Some e => (st', Throw (ExternalError e))
        | None => (st', Normal (settles sdk h c))
        end.

(** [await p] *)
Definition await (p : Promise) : M JsVal :=
  match p with
  | Resolves v => ret v
  | Rejects e => throw (ExternalError e)
  end.

(** [crypto.randomUUID()] *)
Definition crypto_randomUUID : M string :=
  λ st, let w := world st in
        ({| world := {| history := history w; drawn := S (drawn w) |};
            this := this st |},
         Normal (randomUUID sdk (drawn w))).

(** [new GoogleGenAI(options)] *)
Definition new_GoogleGenAI (options : Options) : M GenAI :=
  let* r := construct (NewGoogleGenAI options) in
  ret {| genai_ref := r; genai_options := options |}.

(** [client.chats.create({ model, config: {} })] *)
Definition chats_create (g : GenAI) (model : ModelVariant) : M Chat :=
  let* r := construct (ChatsCreate (genai_ref g) model) in
  ret {| chat_ref := r; chat_client := genai_ref g; chat_model := model |}.

(** ** [class Init] *)

(** The constructor.  Parameter properties initialise the four private
    fields from the arguments (an absent argument takes its default),
    the two field initialisers leave [chat] and [_session] undefined,
    and then the body runs. *)
Definition constructor (apiKey : string) (options : option Options)
    (genai : option GenAI) (modelVariant : option ModelVariant)
    (w : World) : World * Completion Init :=
  let fields :=
    {| _apiKey := apiKey;
       _options := default ∅ options;
       _genai := genai;
       _modelVariant := default gemini_1_5_flash modelVariant;
       chat := None;
       _session := None |} in
  let body : M unit :=
    (let* self := read in
     write (set_options_field (<["apiKey" := JStr (_apiKey self)]> (_options self)));;
     let* self := read in
     let* g := new_GoogleGenAI (_options self) in
     write (set_genai_field (Some g))) in
  match body {| world := w; this := fields |} with
  | (st, Normal _) => (world st, Normal (this st))
  | (st, Throw e) => (world st, Throw e)
  end.

(** [get apiKey()] *)
Definition get_apiKey : M string :=
  let* self := read in ret (_apiKey self).

(** [set apiKey(value)] *)
Definition set_apiKey (value : string) : M unit :=
  write (set_apiKey_field value).

(** The statement [if (!this._apiKey) throw new Error("API key is not set.")]. *)
Definition guard_apiKey : M unit :=
  let* self := read in
  if nonempty (_apiKey self) then ret tt
  else throw (LocalError "API key is not set.").

(** The statement
    [if (!this._genai) this._genai = new GoogleGenAI(this._options)]. *)
Definition build_if_absent : M unit :=
  let* self := read in
  match _genai self with
  | Some _ => ret tt
  | None =>
      let* g := new_GoogleGenAI (_options self) in
      write (set_genai_field (Some g))
  end.

(** [get models()]: the model-operations interface of the handle,
    represented by the handle it belongs to.  After [build_if_absent]
    the field is set, so [this._genai.models] reads it. *)
Definition models : M GenAI :=
  guard_apiKey;;
  build_if_absent;;
  let* self := read in
  match _genai self with
  | Some g => ret g
  | None => throw TypeError
  end.

(** [get options()] *)
Definition options : M Options :=
  let* self := read in ret (_options self).

(** [createChatSession()].  [this._genai?.chats.create(...)] is
    [undefined] when there is no client. *)
Definition createChatSession : M Session :=
  let* self := read in
  let* c := match _genai self with
            | Some g => let* c := chats_create g (_modelVariant self) in ret (Some c)
            | None => ret None
            end in
  write (set_chat_field c);;
  let* self := read in
  let* id := crypto_randomUUID in
  let s := {| sess_chat := chat self; sess_id := id |} in
  write (set_session_field (Some s));;
  ret s.

(** [get chatSession()].  The value finally returned, [this._session!],
    is the slot's content: the cached pair when there is one, and
    otherwise the pair [createChatSession] has just stored. *)
Definition chatSession : M Session :=
  let* self := read in
  match chat self with
  | Some _ => ret tt
  | None =>
      let* c := match _genai self with
                | Some g => let* c := chats_create g (_modelVariant self) in ret (Some c)
                | None => ret None
                end in
      write (set_chat_field c)
  end;;
  let* self := read in
  match _session self with
  | Some s => ret s
  | None =>
      let* s := createChatSession in
      write (set_session_field (Some s));;
      ret s
  end.

(** *** Asynchronous operations *)

(** What the [return] statement of an [async] body hands over: a value
    it has already awaited, or a promise it passes on as it is. *)
Inductive Returned :=
| Value (v : JsVal)
| Pending (p : Promise).

(** How the promise of an [async] function settles, which is what the
    caller observes with [await]. *)
Inductive Settled :=
| Fulfilled (v : JsVal)
| Rejected (e : Error).

(** An [async] function: a throw in the body rejects the promise, a
    returned value fulfils it, a returned promise is adopted. *)
Definition async (body : M Returned) : State → State * Settled :=
  λ st, match body st with
        | (st', Normal (Value v)) => (st', Fulfilled v)
        | (st', Normal (Pending (Resolves v))) => (st', Fulfilled v)
        | (st', Normal (Pending (Rejects e))) => (st', Rejected (ExternalError e))
        | (st', Throw e) => (st', Rejected e)
        end.

Definition generateContent (contents config : JsVal) : M Returned :=
  guard_apiKey;;
  build_if_absent;;
  let* m := models in
  let* self := read in
  let* p := request (ModelsCall (genai_ref m) MGenerateContent
                                (_modelVariant self) contents config) in
  let* res := await p in
  ret (Value res).

Definition generateContentStream (contents config : JsVal) : M Returned :=
  guard_apiKey;;
  build_if_absent;;
  let* m := models in
  let* self := read in
  let* p := request (ModelsCall (genai_ref m) MGenerateContentStream
                                (_modelVariant self) contents config) in
  let* res := await p in
  ret (Value res).

Definition generateImages (prompt : string) (config : JsVal) : M Returned :=
  guard_apiKey;;
  build_if_absent;;
  let* m := models in
  let* self := read in
  let* p := request (ModelsCall (genai_ref m) MGenerateImages
                                (_modelVariant self) (JStr prompt) config) in
  let* res := await p in
  ret (Value res).

Definition generateVideos (prompt : string) (config : JsVal) : M Returned :=
  guard_apiKey;;
  build_if_absent;;
  let* m := models in
  let* self := read in
  let* p := request (ModelsCall (genai_ref m) MGenerateVideos
                                (_modelVariant self) (JStr prompt) config) in
  let* res := await p in
  ret (Value res).

(** The one body that returns the SDK's promise without [await]. *)
Definition computeTokens (contents config : JsVal) : M Returned :=
  guard_apiKey;;
  build_if_absent;;
  let* m := models in
  let* self := read in
  let* res := request (ModelsCall (genai_ref m) MComputeTokens
                                  (_modelVariant self) contents config) in
  ret (Pending res).

Definition countTokens (contents config : JsVal) : M Returned :=
  guard_apiKey;;
  build_if_absent;;
  let* m := models in
  let* self := read in
  let* p := request (ModelsCall (genai_ref m) MCountTokens
                                (_modelVariant self) contents config) in
  let* res := await p in
  ret (Value res).

Definition embedContent (contents config : JsVal) : M Returned :=
  guard_apiKey;;
  build_if_absent;;
  let* m := models in
  let* self := read in
  let* p := request (ModelsCall (genai_ref m) MEmbedContent
                                (_modelVariant self) contents config) in
  let* res := await p in
  ret (Value res).

(** [this.chatSession.chat.sendMessage(...)]: a [TypeError] when the
    cached pair holds no chat. *)
Definition chatMessage (message : JsVal) : M Returned :=
  let* s := chatSession in
  match sess_chat s with
  | None => throw TypeError
  | Some c =>
      let* p := request (SendMessage c message) in
      let* res := await p in
      ret (Value res)
  end.

Definition chatMessageStream (message : JsVal) : M Returned :=
  let* s := chatSession in
  match sess_chat s with
  | None => throw TypeError
  | Some c =>
      let* p := request (SendMessageStream c message) in
      let* res := await p in
      ret (Value res)
  end.

(** [await this._genai?.files.upload(...)]: [undefined] without a
    client, the settled value of the call otherwise. *)
Definition uploadFile (file config : JsVal) : M Returned :=
  let* self := read in
  let* newUpload := match _genai self with
                    | None => ret JUndefined
                    | Some g =>
                        let* p := request (FilesUpload (genai_ref g) file config) in
                        await p
                    end in
  if truthy newUpload then ret (Value newUpload)
  else throw (LocalError "Upload failed").

Definition getFile (filename : string) (config : JsVal) : M Returned :=
  let* self := read in
  let* file := match _genai self with
               | None => ret JUndefined
               | Some g =>
                   let* p := request (FilesGet (genai_ref g) filename config) in
                   await p
               end in
  if truthy file then ret (Value file)
  else throw (LocalError "File not found").

Definition deleteFile (filename : string) (config : JsVal) : M Returned :=
  let* self := read in
  let* response := match _genai self with
                   | None => ret JUndefined
                   | Some g =>
                       let* p := request (FilesDelete (genai_ref g) filename config) in
                       await p
                   end in
  if truthy response then ret (Value response)
  else throw (LocalError "File not found").

(** *** The life of an instance *)

(** Everything a caller can do with an instance. *)
Inductive Op :=
| GetApiKey
| SetApiKey (value : string)
| GetModels
| GetOptions
| GetChatSession
| CreateChatSession
| GenerateContent (contents config : JsVal)
| GenerateContentStream (contents config : JsVal)
| GenerateImages (prompt : string) (config : JsVal)
| GenerateVideos (prompt : string) (config : JsVal)
| ComputeTokens (contents config : JsVal)
| CountTokens (contents config : JsVal)
| EmbedContent (contents config : JsVal)
| ChatMessage (message : JsVal)
| ChatMessageStream (message : JsVal)
| UploadFile (file config : JsVal)
| GetFile (filename : string) (config : JsVal)
| DeleteFile (filename : string) (config : JsVal).

(** The asynchronous operations, by name. *)
Definition body_of (op : Op) : option (M Returned) :=
  match op with
  | GenerateContent c f => Some (generateContent c f)
  | GenerateContentStream c f => Some (generateContentStream c f)
  | GenerateImages p f => Some (generateImages p f)
  | GenerateVideos p f => Some (generateVideos p f)
  | ComputeTokens c f => Some (computeTokens c f)
  | CountTokens c f => Some (countTokens c f)
  | EmbedContent c f => Some (embedContent c f)
  | ChatMessage m => Some (chatMessage m)
  | ChatMessageStream m => Some (chatMessageStream m)
  | UploadFile x f => Some (uploadFile x f)
  | GetFile n f => Some (getFile n f)
  | DeleteFile n f => Some (deleteFile n f)
  | _ => None
  end.

(** The state an operation leaves behind, whatever it returns or throws. *)
Definition step (op : Op) (st : State) : State :=
  match op with
  | GetApiKey => fst (get_apiKey st)
  | SetApiKey v => fst (set_apiKey v st)
  | GetModels => fst (models st)
  | GetOptions => fst (options st)
  | GetChatSession => fst (chatSession st)
  | CreateChatSession => fst (createChatSession st)
  | _ => match body_of op with
         | Some b => fst (async b st)
         | None => st
         end
  end.

Definition run (ops : list Op) (st : State) : State :=
  foldl (λ s op, step op s) st ops.

End Facade.

(** ** Fake SDKs *)

(** Never throws; every promise resolves to a fresh object. *)
Definition obliging : Sdk :=
  {| throws := λ _ _, None;
     settles := λ h _, Resolves (JObj (length h));
     randomUUID := λ i, pretty i |}.

(** Never throws; every promise resolves to [undefined]. *)
Definition barren : Sdk :=
  {| throws := λ _ _, None;
     settles := λ _ _, Resolves JUndefined;
     randomUUID := λ i, pretty i |}.

Definition dawn : World := {| history := []; drawn := 0 |}.

(** ** Reachable states *)

Section Lifetime.

Context (sdk : Sdk).

(** The instance shares the SDK with the rest of the program: between two
    of its operations other code may issue calls and draw identifiers. *)
Definition elapse (calls : list Call) (n : nat) (st : State) : State :=
  {| world := {| history := history (world st) ++ calls;
                 drawn := drawn (world st) + n |};
     this := this st |}.

(** The states an instance goes through, from the state [st0] its
    constructor left it in. *)
Inductive lifetime (st0 : State) : State → Prop :=
| life_start : lifetime st0 st0
| life_step op st : lifetime st0 st → lifetime st0 (step sdk op st)
| life_elapse calls n st : lifetime st0 st → lifetime st0 (elapse calls n st).

(** [born st0]: the constructor returned [st0]. *)
Definition born (st0 : State) : Prop :=
  ∃ apiKey options genai modelVariant w,
    constructor sdk apiKey options genai modelVariant w
    = (world st0, Normal (this st0)).

Definition reachable (st : State) : Prop :=
  ∃ st0, born st0 ∧ lifetime st0 st.

(** A call made on the client whose reference is [r], or on a chat that
    client created.  The construction of a client is no such call. *)
Definition on_client (r : nat) (c : Call) : Prop :=
  match c with
  | NewGoogleGenAI _ => False
  | ModelsCall r' _ _ _ _ | ChatsCreate r' _
  | FilesUpload r' _ _ | FilesGet r' _ _ | FilesDelete r' _ _ => r' = r
  | SendMessage ch _ | SendMessageStream ch _ => chat_client ch = r
  end.

(** What holds of an instance for as long as it lives, [g] being the
    handle its constructor built. *)
Record consistent (g : GenAI) (st : State) : Prop := {
  inv_genai : _genai (this st) = Some g;
  inv_chat : ∀ c, chat (this st) = Some c →
               chat_ref c < length (history (world st)) ∧ chat_client c = genai_ref g;
  inv_session : ∀ s, _session (this st) = Some s →
                  is_Some (sess_chat s) ∧ chat (this st) = sess_chat s ∧
                  ∃ i, i < drawn (world st) ∧ sess_id s = randomUUID sdk i;
}.

(** *** What a caller observes *)

Definition failure {A} (c : Completion A) : option Error :=
  match c with
  | Normal _ => None
  | Throw e => Some e
  end.

Definition rejection (r : Settled) : option Error :=
  match r with
  | Fulfilled _ => None
  | Rejected e => Some e
  end.

(** The error an operation ends with, thrown or delivered by rejection. *)
Definition error_of (op : Op) (st : State) : option Error :=
  match op with
  | GetApiKey => failure (get_apiKey st).2
  | SetApiKey v => failure (set_apiKey v st).2
  | GetModels => failure (models sdk st).2
  | GetOptions => failure (options st).2
  | GetChatSession => failure (chatSession sdk st).2
  | CreateChatSession => failure (createChatSession sdk st).2
  | _ => match body_of sdk op with
         | Some b => rejection (async b st).2
         | None => None
         end
  end.

(** The state after the one call [c] and nothing else. *)
Definition issue (c : Call) (st : State) : State :=
  {| world := log c (world st); this := this st |}.

(** What the SDK's answer to [c] amounts to for whoever awaits it. *)
Definition answer (h : list Call) (c : Call) : Settled :=
  match throws sdk h c with
  | Some e => Rejected (ExternalError e)
  | None =>
      match settles sdk h c with
      | Resolves v => Fulfilled v
      | Rejects e => Rejected (ExternalError e)
      end
  end.

(** The value the call yields, when it yields one. *)
Definition yields (h : list Call) (c : Call) : option JsVal :=
  match answer h c with
  | Fulfilled v => Some v
  | Rejected _ => None
  end.

(** The call yields a value and the value is falsy. *)
Definition yields_nothing (h : list Call) (c : Call) : Prop :=
  ∃ v, yields h c = Some v ∧ truthy v = false.

(** The operations that start with the credential test, and the accessor
    that holds it. *)
Definition guarded (op : Op) : bool :=
  match op with
  | GetModels
  | GenerateContent _ _ | GenerateContentStream _ _
  | GenerateImages _ _ | GenerateVideos _ _
  | ComputeTokens _ _ | CountTokens _ _ | EmbedContent _ _ => true
  | _ => false
  end.


(** The precondition failure on an unset credential: on an instance whose
    credential is empty, [op] ends with the local error and leaves
    everything, the history of calls included, as it was. *)
Definition refuses_unset_credential (op : Op) : Prop :=
  ∀ st, reachable st → _apiKey (this st) = "" →
        step sdk op st = st ∧
        error_of op st = Some (LocalError "API key is not set.").

(** The call on [g.models] that belongs to a generation operation: the
    configured model, the caller's contents or prompt, the caller's
    configuration. *)
Definition models_call (g : GenAI) (i : Init) (op : Op) : option Call :=
  let call method input config :=
    Some (ModelsCall (genai_ref g) method (_modelVariant i) input config) in
  match op with
  | GenerateContent c f => call MGenerateContent c f
  | GenerateContentStream c f => call MGenerateContentStream c f
  | GenerateImages p f => call MGenerateImages (JStr p) f
  | GenerateVideos p f => call MGenerateVideos (JStr p) f
  | ComputeTokens c f => call MComputeTokens c f
  | CountTokens c f => call MCountTokens c f
  | EmbedContent c f => call MEmbedContent c f
  | _ => None
  end.

(** The awaited form of [computeTokens]: the body of [countTokens] with
    the other method, [const res = await this.models.computeTokens(...)]. *)
Definition computeTokens_awaited (contents config : JsVal) : M Returned :=
  guard_apiKey;;
  build_if_absent sdk;;
  let* m := models sdk in
  let* self := read in
  let* p := request sdk (ModelsCall (genai_ref m) MComputeTokens
                                    (_modelVariant self) contents config) in
  let* res := await p in
  ret (Value res).

End Lifetime.

(** ** Sample instances *)

(** [new Init("k1")] on a fresh world. *)
Definition demo : State :=
  {| world := {| history := [NewGoogleGenAI {["apiKey" := JStr "k1"]}]; drawn := 0 |};
     this := {| _apiKey := "k1";
                _options := {["apiKey" := JStr "k1"]};
                _genai := Some {| genai_ref := 0;
                                  genai_options := {["apiKey" := JStr "k1"]} |};
                _modelVariant := gemini_1_5_flash;
                chat := None;
                _session := None |} |}.

(** [demo] after [instance.apiKey = ""]. *)
Definition unset : State := step obliging (SetApiKey "") demo.


(** [demo] after a first read of [instance.chatSession]. *)
Definition chatting : State := step obliging GetChatSession demo.

(** The pair that read cached. *)
Definition first_session : Session :=
  {| sess_chat := Some {| chat_ref := 2; chat_client := 0;
                          chat_model := gemini_1_5_flash |};
     sess_id := "0" |}.



(** ** Further observations *)

(** The credential after the operations [ops], started from [k]: the
    value of the last assignment to [apiKey] among them. *)
Definition last_write (ops : list Op) (k : string) : string :=
  foldl (λ k op, match op with SetApiKey v => v | _ => k end) k ops.

(** The model a call names, for the calls that name one; a message goes
    to the model its chat was created for. *)
Definition call_model (c : Call) : option ModelVariant :=
  match c with
  | ModelsCall _ _ m _ _ | ChatsCreate _ m => Some m
  | SendMessage ch _ | SendMessageStream ch _ => Some (chat_model ch)
  | NewGoogleGenAI _ | FilesUpload _ _ _ | FilesGet _ _ _ | FilesDelete _ _ _ => None
  end.

(** The chat the instance holds was created for the instance's model. *)
Definition model_kept (st : State) : Prop :=
  ∀ c, chat (this st) = Some c → chat_model c = _modelVariant (this st).

(** The message of the one [Error] an operation creates itself. *)
Definition own_message (op : Op) : option string :=
  match op with
  | GetModels
  | GenerateContent _ _ | GenerateContentStream _ _
  | GenerateImages _ _ | GenerateVideos _ _
  | ComputeTokens _ _ | CountTokens _ _ | EmbedContent _ _ =>
      Some "API key is not set."
  | UploadFile _ _ => Some "Upload failed"
  | GetFile _ _ | DeleteFile _ _ => Some "File not found"
  | _ => None
  end.

(** An SDK whose third call throws; every other call is answered as by
    [obliging]. *)
Definition flaky : Sdk :=
  {| throws := λ h _, if decide (length h = 2) then Some (JStr "boom") else None;
     settles := λ h _, Resolves (JObj (length h));
     randomUUID := λ i, pretty i |}.

(** [demo], with [flaky], after a read of [instance.chatSession] that
    failed in its second [chats.create]. *)
Definition half_open : State := step flaky GetChatSession demo.

(** ** The earlier forms of the class *)

(** [class Init] before the chat and file operations were added: four
    fields, the accessors and the seven generation operations.  The oldest
    form has the first four operations only, and its [generateContent]
    takes a string prompt. *)
Module Earlier.

Record Init := {
  _apiKey : string;
  _options : Options;
  _genai : option GenAI;
  _modelVariant : ModelVariant;
}.

Record State := { world : World; this : Init }.

Definition M (A : Type) : Type := State → State * Completion A.

Definition ret {A} (a : A) : M A := λ st, (st, Normal a).

Definition throw {A} (e : Error) : M A := λ st, (st, Throw e).

Definition bind {A B} (m : M A) (k : A → M B) : M B :=
  λ st, match m st with
        | (st', Normal a) => k a st'
        | (st', Throw e) => (st', Throw e)
        end.

#[local, warnings="-notation-overridden"]
Notation "'let*' x := m 'in' k" := (bind m (λ x, k))
  (at level 10, x name, m at level 100, k at level 200).
#[local, warnings="-notation-overridden"]
Notation "m ;; k" := (bind m (λ _, k))
  (at level 100, k at level 200, right associativity).

Definition read : M Init := λ st, (st, Normal (this st)).

Definition write (f : Init → Init) : M unit :=
  λ st, ({| world := world st; this := f (this st) |}, Normal tt).

Definition set_genai_field (g : option GenAI) (i : Init) : Init :=
  {| _apiKey := _apiKey i; _options := _options i; _genai := g;
     _modelVariant := _modelVariant i |}.

Section Facade.

Context (sdk : Sdk).

(** [new GoogleGenAI(options)] *)
Definition new_GoogleGenAI (options : Options) : M GenAI :=
  λ st, let h := history (world st) in
        let c := NewGoogleGenAI options in
        let st' := {| world := log c (world st); this := this st |} in
        match throws sdk h c with
        | Some e => (st', Throw (ExternalError e))
        | None => (st', Normal {| genai_ref := length h; genai_options := options |})
        end.

(** A call on [client.models], which returns a promise. *)
Definition request (c : Call) : M Promise :=
  λ st, let h := history (world st) in
        let st' := {| world := log c (world st); this := this st |} in
        match throws sdk h c with
        | Some e => (st', Throw (ExternalError e))
        | None => (st', Normal (settles sdk h c))
        end.

Definition await (p : Promise) : M JsVal :=
  match p with
  | Resolves v => ret v
  | Rejects e => throw (ExternalError e)
  end.

Definition constructor (apiKey : string) (options : option Options)
    (genai : option GenAI) (modelVariant : option ModelVariant)
    (w : World) : World * Completion Init :=
  let fields :=
    {| _apiKey := apiKey;
       _options := default ∅ options;
       _genai := genai;
       _modelVariant := default gemini_1_5_flash modelVariant |} in
  let body : M unit :=
    (let* self := read in
     write (λ i, {| _apiKey := _apiKey i;
                    _options := <["apiKey" := JStr (_apiKey self)]> (_options self);
                    _genai := _genai i; _modelVariant := _modelVariant i |});;
     let* self := read in
     let* g := new_GoogleGenAI (_options self) in
     write (set_genai_field (Some g))) in
  match body {| world := w; this := fields |} with
  | (st, Normal _) => (world st, Normal (this st))
  | (st, Throw e) => (world st, Throw e)
  end.

Definition get_apiKey : M string :=
  let* self := read in ret (_apiKey self).

Definition set_apiKey (value : string) : M unit :=
  write (λ i, {| _apiKey := value; _options := _options i;
                 _genai := _genai i; _modelVariant := _modelVariant i |}).

Definition guard_apiKey : M unit :=
  let* self := read in
  if nonempty (_apiKey self) then ret tt
  else throw (LocalError "API key is not set.").

Definition build_if_absent : M unit :=
  let* self := read in
  match _genai self with
  | Some _ => ret tt
  | None =>
      let* g := new_GoogleGenAI (_options self) in
      write (set_genai_field (Some g))
  end.

Definition models : M GenAI :=
  guard_apiKey;;
  build_if_absent;;
  let* self := read in
  match _genai self with
  | Some g => ret g
  | None => throw TypeError
  end.

Definition options : M Options :=
  let* self := read in ret (_options self).

Definition async (body : M Returned) : State → State * Settled :=
  λ st, match body st with
        | (st', Normal (Value v)) => (st', Fulfilled v)
        | (st', Normal (Pending (Resolves v))) => (st', Fulfilled v)
        | (st', Normal (Pending (Rejects e))) => (st', Rejected (ExternalError e))
        | (st', Throw e) => (st', Rejected e)
        end.

Definition generateContent (contents config : JsVal) : M Returned :=
  guard_apiKey;;
  build_if_absent;;
  let* m := models in
  let* self := read in
  let* p := request (ModelsCall (genai_ref m) MGenerateContent
                                (_modelVariant self) contents config) in
  let* res := await p in
  ret (Value res).

(** The oldest [generateContent]: [contents: prompt], a string. *)
Definition generateContent_prompt (prompt : string) (config : JsVal) : M Returned :=
  guard_apiKey;;
  build_if_absent;;
  let* m := models in
  let* self := read in
  let* p := request (ModelsCall (genai_ref m) MGenerateContent
                                (_modelVariant self) (JStr prompt) config) in
  let* res := await p in
  ret (Value res).

Definition generateContentStream (contents config : JsVal) : M Returned :=
  guard_apiKey;;
  build_if_absent;;
  let* m := models in
  let* self := read in
  let* p := request (ModelsCall (genai_ref m) MGenerateContentStream
                                (_modelVariant self) contents config) in
  let* res := await p in
  ret (Value res).

Definition generateImages (prompt : string) (config : JsVal) : M Returned :=
  guard_apiKey;;
  build_if_absent;;
  let* m := models in
  let* self := read in
  let* p := request (ModelsCall (genai_ref m) MGenerateImages
                                (_modelVariant self) (JStr prompt) config) in
  let* res := await p in
  ret (Value res).

Definition generateVideos (prompt : string) (config : JsVal) : M Returned :=
  guard_apiKey;;
  build_if_absent;;
  let* m := models in
  let* self := read in
  let* p := request (ModelsCall (genai_ref m) MGenerateVideos
                                (_modelVariant self) (JStr prompt) config) in
  let* res := await p in
  ret (Value res).

Definition computeTokens (contents config : JsVal) : M Returned :=
  guard_apiKey;;
  build_if_absent;;
  let* m := models in
  let* self := read in
  let* res := request (ModelsCall (genai_ref m) MComputeTokens
                                  (_modelVariant self) contents config) in
  ret (Pending res).

Definition countTokens (contents config : JsVal) : M Returned :=
  guard_apiKey;;
  build_if_absent;;
  let* m := models in
  let* self := read in
  let* p := request (ModelsCall (genai_ref m) MCountTokens
                                (_modelVariant self) contents config) in
  let* res := await p in
  ret (Value res).

Definition embedContent (contents config : JsVal) : M Returned :=
  guard_apiKey;;
  build_if_absent;;
  let* m := models in
  let* self := read in
  let* p := request (ModelsCall (genai_ref m) MEmbedContent
                                (_modelVariant self) contents config) in
  let* res := await p in
  ret (Value res).

(** The asynchronous operations of the earlier class, by name. *)
Definition body_of (op : Op) : option (M Returned) :=
  match op with
  | GenerateContent c f => Some (generateContent c f)
  | GenerateContentStream c f => Some (generateContentStream c f)
  | GenerateImages p f => Some (generateImages p f)
  | GenerateVideos p f => Some (generateVideos p f)
  | ComputeTokens c f => Some (computeTokens c f)
  | CountTokens c f => Some (countTokens c f)
  | EmbedContent c f => Some (embedContent c f)
  | _ => None
  end.

End Facade.

End Earlier.

(** The part of an instance of the present class that an instance of the
    earlier class has. *)
Definition earlier_fields (i : Init) : Earlier.Init :=
  {| Earlier._apiKey := _apiKey i; Earlier._options := _options i;
     Earlier._genai := _genai i; Earlier._modelVariant := _modelVariant i |}.

Definition earlier (st : State) : Earlier.State :=
  {| Earlier.world := world st; Earlier.this := earlier_fields (this st) |}.

(** The same outcome, seen through [earlier]. *)
Definition agree {A} (old : Earlier.State * A) (new : State * A) : Prop :=
  old = (earlier new.1, new.2).

(** ** Proof tools *)

Ltac open_ops :=
  unfold step, body_of, async,
    generateContent, generateContentStream, generateImages, generateVideos,
    computeTokens, countTokens, embedContent, chatMessage, chatMessageStream,
    uploadFile, getFile, deleteFile, models, guard_apiKey, build_if_absent,
    chatSession, createChatSession, chats_create, new_GoogleGenAI,
    construct, request, await, crypto_randomUUID, get_apiKey, set_apiKey,
    options, bind, ret, throw, read, write, log, elapse,
    set_apiKey_field, set_options_field, set_genai_field, set_chat_field,
    set_session_field in *.

Ltac split_match :=
  match goal with
  | |- context [match ?x with _ => _ end] =>
      first [ is_var x; destruct x | destruct x eqn:? ]; simpl in *
  | H : context [match ?x with _ => _ end] |- _ =>
      first [ is_var x; destruct x | destruct x eqn:? ]; simpl in *
  end.

Ltac run_ops :=
  open_ops; simpl in *; repeat (simplify_eq; split_match); simplify_eq; simpl in *.

Ltac open_earlier :=
  unfold agree, earlier, earlier_fields, Earlier.body_of, Earlier.async,
    Earlier.generateContent, Earlier.generateContent_prompt,
    Earlier.generateContentStream, Earlier.generateImages,
    Earlier.generateVideos, Earlier.computeTokens, Earlier.countTokens,
    Earlier.embedContent, Earlier.models, Earlier.guard_apiKey,
    Earlier.build_if_absent, Earlier.new_GoogleGenAI, Earlier.request,
    Earlier.await, Earlier.get_apiKey, Earlier.set_apiKey, Earlier.options,
    Earlier.bind, Earlier.ret, Earlier.throw, Earlier.read, Earlier.write,
    Earlier.set_genai_field in *.

(** Feed the invariant's implications with what the state holds. *)
Ltac use_inv :=
  repeat match goal with
    | H : ∀ c, Some ?x = Some c → _ |- _ => specialize (H _ eq_refl)
    | H : ∀ c, None = Some c → _ |- _ => clear H
    | H : ?s = Some ?x, H' : ∀ c, ?s = Some c → _ |- _ => specialize (H' _ H)
    end.

Section Invariant.

Context (sdk : Sdk).

Lemma born_consistent st0 :
  born sdk st0 → ∃ g, consistent sdk g st0.
Proof.
  intros (k & o & c & m & w & Hnew). destruct st0 as [w0 i0]; simpl in *.
  unfold constructor in Hnew. run_ops.
  eexists. split; simpl; done.
Qed.

Lemma elapse_consistent g calls n st :
  consistent sdk g st → consistent sdk g (elapse calls n st).
Proof.
  intros [Hg Hc Hs]. split; simpl; [done | |].
  - intros c Hc'. destruct (Hc c Hc') as [? ?]. rewrite length_app. split; [lia | done].
  - intros s Hs'. destruct (Hs s Hs') as (? & ? & i & ? & ?).
    split_and!; [done | done |]. exists i. split; [lia | done].
Qed.

Lemma step_consistent g op st :
  consistent sdk g st → consistent sdk g (step sdk op st).
Proof.
  intros [Hg Hc Hs]. destruct st as [[h n] [k o g' m c s]]; simpl in *. subst g'.
  destruct op; run_ops.
  all: split; simpl; try done; intros; simplify_eq; use_inv.
  all: rewrite ?length_app; simpl in *; destruct_and?; simplify_eq.
  all: try (split_and?; eauto with lia; fail).
  all: destruct_and?; by match goal with H : is_Some _ |- _ => destruct H; congruence end.
Qed.

Lemma lifetime_consistent g st0 st :
  consistent sdk g st0 → lifetime sdk st0 st → consistent sdk g st.
Proof.
  intros H0. induction 1; auto using step_consistent, elapse_consistent.
Qed.

Lemma reachable_consistent st :
  reachable sdk st → ∃ g, consistent sdk g st.
Proof.
  intros (st0 & Hb & Hl). destruct (born_consistent _ Hb) as [g Hg].
  exists g. eauto using lifetime_consistent.
Qed.

(** The calls an operation issues are calls on the instance's client. *)
Lemma step_issues g op st :
  consistent sdk g st →
  ∃ issued : list Call, history (world (step sdk op st)) = history (world st) ++ issued ∧
            Forall (on_client (genai_ref g)) issued.
Proof.
  intros [Hg Hc Hs]. destruct st as [[h n] [k o g' m c s]]; simpl in *. subst g'.
  destruct op; run_ops.
  all: first
    [ by exists []; rewrite app_nil_r
    | eexists; split; [by rewrite <- ?app_assoc |];
      use_inv; destruct_and?; simplify_eq; repeat constructor; simpl; congruence ].
Qed.

Lemma step_draws op st :
  drawn (world st) ≤ drawn (world (step sdk op st)).
Proof.
  destruct st as [[h n] [k o g m c s]].
  destruct op; run_ops; lia.
Qed.

End Invariant.

(** ** The constructor and the client handle *)

Section Client.

Context (sdk : Sdk).


(** C10.  In every state [st] an instance goes through after its
    constructor returned [st0], the client handle is set and is the one of
    [st0]; the statement that builds a client when none is there does
    nothing; and whatever operation comes next keeps the handle and issues
    calls on that client only, none of them a construction. *)
Theorem client_built_once (st0 st : State) :
  born sdk st0 → lifetime sdk st0 st →
  ∃ g,
    _genai (this st0) = Some g ∧
    _genai (this st) = Some g ∧
    build_if_absent sdk st = (st, Normal tt) ∧
    ∀ op,
      _genai (this (step sdk op st)) = Some g ∧
      ∃ issued : list Call,
        history (world (step sdk op st)) = history (world st) ++ issued ∧
        Forall (on_client (genai_ref g)) issued.
Proof.
  intros Hb Hl. destruct (born_consistent _ _ Hb) as [g H0].
  pose proof (lifetime_consistent _ _ _ _ H0 Hl) as Hst.
  exists g. split_and!.
  - apply H0.
  - apply Hst.
  - destruct Hst as [Hg _ _]. unfold build_if_absent, bind, read, ret.
    by rewrite Hg.
  - intros op. split.
    + apply (step_consistent sdk g op st Hst).
    + by apply step_issues.
Qed.

End Client.

(** ** The credential *)

Section Credential.

Context (sdk : Sdk).

(** C3.  The setter returns normally and writes the [_apiKey] field alone:
    the configuration bag, its [apiKey] entry included, the client handle
    and the configuration it was built from, the model, the chat and the
    session slot are as before, and no call is issued. *)
Theorem set_apiKey_writes_one_field (v : string) (st : State) :
  let st' := (set_apiKey v st).1 in
  (set_apiKey v st).2 = Normal tt ∧
  _apiKey (this st') = v ∧
  _options (this st') = _options (this st) ∧
  _options (this st') !! "apiKey" = _options (this st) !! "apiKey" ∧
  _genai (this st') = _genai (this st) ∧
  _modelVariant (this st') = _modelVariant (this st) ∧
  chat (this st') = chat (this st) ∧
  _session (this st') = _session (this st) ∧
  world st' = world st.
Proof. by split_and!. Qed.

End Credential.

(** ** Facts about the sample instances *)

Lemma demo_born : born obliging demo.
Proof. exists "k1", None, None, None, dawn. reflexivity. Qed.

Lemma demo_reachable : reachable obliging demo.
Proof. exists demo. split; [apply demo_born | constructor]. Qed.

Lemma after_demo_reachable op : reachable obliging (step obliging op demo).
Proof. exists demo. split; [apply demo_born | do 2 constructor]. Qed.

Lemma obliging_draws_fresh i j :
  randomUUID obliging i = randomUUID obliging j → i = j.
Proof. apply pretty_nat_inj. Qed.

(** ** The credential guard *)

Section Guard.

Context (sdk : Sdk).

(** C1, as the code has it.  The accessor [models] and the seven
    generation operations refuse an unset credential: on an instance whose
    credential is the empty string each ends with the local error
    "API key is not set." and leaves the state and the history of calls as
    they were, so no call reaches the SDK.  (The chat and file operations
    carry no such test.) *)
Theorem guarded_operations_refuse_unset_credential (op : Op) :
  guarded op = true → refuses_unset_credential sdk op.
Proof.
  intros Hop st _ Hkey.
  destruct st as [w [k o g m c s]]; simpl in Hkey; subst k.
  destruct op; try discriminate Hop; done.
Qed.

End Guard.

Lemma guarded_operations_refuse_unset_credential_witness :
  step obliging (GenerateContent (JStr "What is AI?") JUndefined) unset = unset ∧
  error_of obliging (GenerateContent (JStr "What is AI?") JUndefined) unset
  = Some (LocalError "API key is not set.").
Proof.
  apply (guarded_operations_refuse_unset_credential obliging
           (GenerateContent (JStr "What is AI?") JUndefined) eq_refl unset).
  - apply after_demo_reachable.
  - reflexivity.
Defined.

(** C1, as stated, fails: on a constructed instance whose credential has
    been set to the empty string, [uploadFile] issues [files.upload] on
    the client and fulfils with its result, and neither [getFile],
    [deleteFile], [chatMessage] nor [chatMessageStream] refuses. *)
Lemma unset_credential_reaches_sdk :
  reachable obliging unset ∧
  _apiKey (this unset) = "" ∧
  history (world (step obliging (UploadFile (JStr "a.txt") JUndefined) unset))
  = history (world unset) ++ [FilesUpload 0 (JStr "a.txt") JUndefined] ∧
  error_of obliging (UploadFile (JStr "a.txt") JUndefined) unset = None ∧
  ¬ refuses_unset_credential obliging (UploadFile (JStr "a.txt") JUndefined) ∧
  ¬ refuses_unset_credential obliging (GetFile "files/a" JUndefined) ∧
  ¬ refuses_unset_credential obliging (DeleteFile "files/a" JUndefined) ∧
  ¬ refuses_unset_credential obliging (ChatMessage (JStr "hello")) ∧
  ¬ refuses_unset_credential obliging (ChatMessageStream (JStr "hello")).
Proof.
  split_and!; try reflexivity.
  - apply after_demo_reachable.
  - intros H. by destruct (H unset (after_demo_reachable _) eq_refl) as [_ [=]].
  - intros H. by destruct (H unset (after_demo_reachable _) eq_refl) as [_ [=]].
  - intros H. by destruct (H unset (after_demo_reachable _) eq_refl) as [_ [=]].
  - intros H. by destruct (H unset (after_demo_reachable _) eq_refl) as [_ [=]].
  - intros H. by destruct (H unset (after_demo_reachable _) eq_refl) as [_ [=]].
Qed.


(** ** Pass-through *)

Section PassThrough.

Context (sdk : Sdk).

Lemma yields_answer h c v :
  yields sdk h c = Some v ↔ answer sdk h c = Fulfilled v.
Proof. unfold yields. destruct (answer sdk h c); naive_solver. Qed.

(** C7.  On an instance in any state of its life, each file operation
    issues its one call on the client's files interface.  It rejects with
    its own error ("Upload failed" for [uploadFile], "File not found" for
    [getFile] and [deleteFile]) exactly when that call yields a falsy
    value, and in every other case what it delivers is what the call
    delivered: the value it yielded, or the failure it ended with. *)
Theorem file_operations_fail_on_empty_result
    (st : State) (file : JsVal) (name : string) (config : JsVal) :
  reachable sdk st →
  ∃ g, _genai (this st) = Some g ∧
    let h := history (world st) in
    let verdict (body : M Returned) (c : Call) (message : string) :=
      (async body st).1 = issue c st ∧
      ((async body st).2 = Rejected (LocalError message) ↔ yields_nothing sdk h c) ∧
      (¬ yields_nothing sdk h c → (async body st).2 = answer sdk h c) in
    verdict (uploadFile sdk file config)
            (FilesUpload (genai_ref g) file config) "Upload failed" ∧
    verdict (getFile sdk name config)
            (FilesGet (genai_ref g) name config) "File not found" ∧
    verdict (deleteFile sdk name config)
            (FilesDelete (genai_ref g) name config) "File not found".
Proof.
  intros Hr. destruct (reachable_consistent _ _ Hr) as [g [Hg _ _]].
  exists g. split; [done |].
  destruct st as [[h n] [k o g' m c s]]; simpl in *. subst g'.
  unfold yields_nothing, yields, answer, issue.
  split_and!; run_ops; try done.
  all: try (split; [intros [=] | intros (v' & [=] & ?)]; simplify_eq; eauto; congruence).
  all: try (intros Hn; exfalso; apply Hn; eauto).
Qed.

(** C8.  On an instance in any state of its life whose credential is not
    empty, every generation operation leaves behind the state it found
    plus exactly one call, the call on the client's model-operations
    interface that belongs to it, and delivers what that call delivered:
    when the call yields the response [r], the operation fulfils with [r]. *)
Theorem generation_operations_pass_through (st : State) :
  reachable sdk st → _apiKey (this st) ≠ "" →
  ∃ g, _genai (this st) = Some g ∧
    ∀ op c, models_call g (this st) op = Some c →
      ∃ body, body_of sdk op = Some body ∧
        async body st = (issue c st, answer sdk (history (world st)) c) ∧
        ∀ r, yields sdk (history (world st)) c = Some r →
             (async body st).2 = Fulfilled r.
Proof.
  intros Hr Hkey. destruct (reachable_consistent _ _ Hr) as [g [Hg _ _]].
  exists g. split; [done |]. intros op c Hc.
  assert (∃ body, body_of sdk op = Some body ∧
            async body st = (issue c st, answer sdk (history (world st)) c))
    as (body & Hb & Hrun).
  { destruct st as [[h n] [k o g' m ch s]]; simpl in *. subst g'.
    destruct k as [| a k]; [done |].
    unfold answer, issue.
    destruct op; simplify_eq/=; eexists; (split; [done |]); by run_ops. }
  exists body. split_and!; [done.. |].
  intros r Hy. rewrite Hrun. simpl. by apply yields_answer.
Qed.

(** C9.  An asynchronous operation whose body returns a promise it has
    not awaited can only be [computeTokens]; [computeTokens] does so
    whenever the call it issues returns a promise; and for the caller who
    awaits the operation there is no difference with the awaited form: the
    same state is left behind and the same value or failure delivered. *)
Theorem computeTokens_alone_unawaited :
  (∀ op body st p,
     body_of sdk op = Some body → (body st).2 = Normal (Pending p) →
     ∃ contents config, op = ComputeTokens contents config) ∧
  (∀ contents config st g,
     _genai (this st) = Some g → _apiKey (this st) ≠ "" →
     let c := ModelsCall (genai_ref g) MComputeTokens
                         (_modelVariant (this st)) contents config in
     throws sdk (history (world st)) c = None →
     (computeTokens sdk contents config st).2
     = Normal (Pending (settles sdk (history (world st)) c))) ∧
  (∀ contents config st,
     async (computeTokens sdk contents config) st
     = async (computeTokens_awaited sdk contents config) st).
Proof.
  split_and!.
  - intros op body [[h n] [k o g m c s]] p Hb Hp.
    destruct op; simplify_eq/=; eauto; exfalso; by run_ops.
  - intros contents config [[h n] [k o g' m c s]] g Hg Hkey; simpl in *.
    subst g'. destruct k; [done |]. intros Hok. by run_ops.
  - intros contents config [[h n] [k o g m c s]].
    unfold computeTokens_awaited. by run_ops.
Qed.

End PassThrough.

(** ** The chat session *)

Section ChatSession.

Context (sdk : Sdk).

(** C4.  Once the session slot is filled with the pair [s], reading
    [chatSession] returns [s] and changes nothing; no operation other than
    [createChatSession] changes the slot; and [createChatSession] issues
    [chats.create] on the client and, unless that call throws, overwrites
    the slot with the pair it returns, whose chat handle and whose
    identifier both differ from those of [s] (identifiers drawn from
    [crypto.randomUUID] being pairwise distinct). *)
Theorem chat_session_identifier_stable (st : State) (s : Session) :
  reachable sdk st →
  _session (this st) = Some s →
  (∀ i j, randomUUID sdk i = randomUUID sdk j → i = j) →
  chatSession sdk st = (st, Normal s) ∧
  (∀ op, op ≠ CreateChatSession → _session (this (step sdk op st)) = Some s) ∧
  ∃ g, _genai (this st) = Some g ∧
    let c := ChatsCreate (genai_ref g) (_modelVariant (this st)) in
    match throws sdk (history (world st)) c with
    | Some e => createChatSession sdk st = (issue c st, Throw (ExternalError e))
    | None =>
        ∃ st' s',
          createChatSession sdk st = (st', Normal s') ∧
          _session (this st') = Some s' ∧
          chat (this st') = sess_chat s' ∧
          sess_chat s' ≠ sess_chat s ∧
          sess_id s' ≠ sess_id s
    end.
Proof.
  intros Hr Hs Hfresh. destruct (reachable_consistent _ _ Hr) as [g [Hg Hc Hinv]].
  destruct st as [[h n] [k o g' m c s0]]; simpl in *. subst g' s0.
  destruct (Hinv s eq_refl) as ([ch Hch] & Hcs & i & Hi & Hid).
  rewrite Hch in Hcs. subst c. destruct (Hc ch eq_refl) as [Hlt _].
  split_and!.
  - by run_ops.
  - intros op Hop. destruct op; try done; by run_ops.
  - exists g. split; [done |]. unfold issue. run_ops; [done |].
    do 2 eexists. split_and!; try done; simpl.
    + rewrite Hch. intros [= <-]. simpl in Hlt. lia.
    + rewrite Hid. intros Heq. apply Hfresh in Heq. lia.
Qed.


End ChatSession.

(** ** The theorems at the sample instances *)

Lemma demo_born_barren : born barren demo.
Proof. exists "k1", None, None, None, dawn. reflexivity. Qed.

Lemma demo_reachable_barren : reachable barren demo.
Proof. exists demo. split; [apply demo_born_barren | constructor]. Qed.


Lemma client_built_once_witness :
  ∃ g,
    _genai (this demo) = Some g ∧
    _genai (this chatting) = Some g ∧
    build_if_absent obliging chatting = (chatting, Normal tt) ∧
    ∀ op,
      _genai (this (step obliging op chatting)) = Some g ∧
      ∃ issued : list Call,
        history (world (step obliging op chatting))
        = history (world chatting) ++ issued ∧
        Forall (on_client (genai_ref g)) issued.
Proof.
  apply (client_built_once obliging demo chatting).
  - apply demo_born.
  - apply life_step, life_start.
Defined.

(** With an SDK whose calls all resolve to [undefined], the upload fails. *)
Lemma file_operations_fail_on_empty_result_witness :
  (async (uploadFile barren (JStr "a.txt") JUndefined) demo).2
  = Rejected (LocalError "Upload failed").
Proof.
  destruct (file_operations_fail_on_empty_result barren demo
              (JStr "a.txt") "files/a" JUndefined demo_reachable_barren)
    as (g & Hg & (_ & Hiff & _) & _).
  injection Hg as <-. apply Hiff. exists JUndefined. split; reflexivity.
Defined.

Lemma generation_operations_pass_through_witness :
  async (generateContent obliging (JStr "What is AI?") JUndefined) demo
  = (issue (ModelsCall 0 MGenerateContent gemini_1_5_flash
                       (JStr "What is AI?") JUndefined) demo,
     Fulfilled (JObj 1)).
Proof.
  destruct (generation_operations_pass_through obliging demo demo_reachable)
    as (g & Hg & Hops); [done |].
  injection Hg as <-.
  destruct (Hops (GenerateContent (JStr "What is AI?") JUndefined) _ eq_refl)
    as (body & Hbody & Hrun & _).
  injection Hbody as <-. exact Hrun.
Defined.

Lemma computeTokens_alone_unawaited_witness :
  (computeTokens obliging (JStr "count me") JUndefined demo).2
  = Normal (Pending (Resolves (JObj 1))) ∧
  async (computeTokens obliging (JStr "count me") JUndefined) demo
  = async (computeTokens_awaited obliging (JStr "count me") JUndefined) demo.
Proof.
  destruct (computeTokens_alone_unawaited obliging) as (_ & Hpending & Hsame).
  split.
  - apply (Hpending (JStr "count me") JUndefined demo _ eq_refl); [done | reflexivity].
  - apply Hsame.
Defined.

Lemma chat_session_identifier_stable_witness :
  chatSession obliging chatting = (chatting, Normal first_session) ∧
  _session (this (step obliging (ChatMessage (JStr "hello")) chatting))
  = Some first_session ∧
  ∃ st' s', createChatSession obliging chatting = (st', Normal s') ∧
            _session (this st') = Some s' ∧
            sess_chat s' ≠ sess_chat first_session ∧ sess_id s' ≠ "0".
Proof.
  destruct (chat_session_identifier_stable obliging chatting first_session
              (after_demo_reachable _) eq_refl obliging_draws_fresh)
    as (Hread & Hother & g & Hg & Hnew).
  split_and!; [exact Hread | by apply Hother |].
  simpl in Hnew. destruct Hnew as (st' & s' & Hrun & Hslot & _ & Hchat & Hid).
  exists st', s'. by split_and!.
Defined.

(** The first read of [chatSession] on a new instance calls [chats.create]
    twice: once for [this.chat], once more inside [createChatSession], whose
    chat replaces the first. *)
Lemma first_read_creates_two_chats :
  history (world chatting)
  = history (world demo)
    ++ [ChatsCreate 0 gemini_1_5_flash; ChatsCreate 0 gemini_1_5_flash] ∧
  chat (this chatting)
  = Some {| chat_ref := 2; chat_client := 0; chat_model := gemini_1_5_flash |}.
Proof. split; reflexivity. Qed.


(** ** More on the credential and the configuration *)

Section Fields.

Context (sdk : Sdk).

Lemma step_apiKey op st :
  _apiKey (this (step sdk op st))
  = match op with SetApiKey v => v | _ => _apiKey (this st) end.
Proof. destruct st as [[h n] [k o g m c s]]. destruct op; by run_ops. Qed.

Lemma step_options op st :
  _options (this (step sdk op st)) = _options (this st) ∧
  _modelVariant (this (step sdk op st)) = _modelVariant (this st).
Proof. destruct st as [[h n] [k o g m c s]]. destruct op; by run_ops. Qed.

Lemma run_lifetime ops st : lifetime sdk st (run sdk ops st).
Proof.
  induction ops as [| op ops IH] using rev_ind; [constructor |].
  unfold run. rewrite foldl_snoc. by constructor.
Qed.

(** X1.  Whatever operations are run on an instance, in whatever state,
    and whether they succeed or fail, reading [apiKey] afterwards returns
    the value of the last assignment to [apiKey] among them, or the
    credential before them when there was none: nothing but the setter
    writes the credential. *)
Theorem apiKey_reads_last_write (ops : list Op) (st : State) :
  get_apiKey (run sdk ops st)
  = (run sdk ops st, Normal (last_write ops (_apiKey (this st)))).
Proof.
  unfold get_apiKey, bind, read, ret. f_equal. f_equal.
  induction ops as [| op ops IH] using rev_ind; [done |].
  unfold run, last_write in *. rewrite !foldl_snoc, step_apiKey, IH.
  by destruct op.
Qed.

Lemma lifetime_options st0 st :
  lifetime sdk st0 st →
  _options (this st) = _options (this st0) ∧
  _modelVariant (this st) = _modelVariant (this st0).
Proof.
  induction 1 as [| op st Hl [IHo IHm] | calls n st Hl IH]; [done | | done].
  by destruct (step_options op st) as [-> ->].
Qed.


End Fields.

(** ** More on construction and on the accessors *)

Section Construction.

Context (sdk : Sdk).

Lemma constructor_outcome apiKey opts genai modelVariant w :
  constructor sdk apiKey opts genai modelVariant w
  = let merged := <["apiKey" := JStr apiKey]> (default ∅ opts) in
    (log (NewGoogleGenAI merged) w,
     match throws sdk (history w) (NewGoogleGenAI merged) with
     | Some e => Throw (ExternalError e)
     | None =>
         Normal {| _apiKey := apiKey; _options := merged;
                   _genai := Some {| genai_ref := length (history w);
                                     genai_options := merged |};
                   _modelVariant := default gemini_1_5_flash modelVariant;
                   chat := None; _session := None |}
     end).
Proof. unfold constructor. by run_ops. Qed.



(** X5.  On an instance in any state of its life the accessor [models]
    changes nothing and issues no call: it returns the interface of the
    client built at construction when the credential is not empty, and
    throws "API key is not set." when it is. *)
Theorem models_reads_the_client (st : State) :
  reachable sdk st →
  ∃ g, _genai (this st) = Some g ∧
       models sdk st
       = (st, if nonempty (_apiKey (this st)) then Normal g
              else Throw (LocalError "API key is not set.")).
Proof.
  intros Hr. destruct (reachable_consistent _ _ Hr) as [g [Hg _ _]].
  exists g. split; [done |].
  destruct st as [[h n] [k o g' m c s]]; simpl in *. subst g'.
  destruct k; by run_ops.
Qed.

(** X6.  On an instance in any state of its life, an operation that
    fails fails with what the SDK threw or rejected with, or with the one
    error of its own: "API key is not set." for [models] and the
    generation operations, "Upload failed" for [uploadFile], "File not
    found" for [getFile] and [deleteFile], none for the chat operations.
    No operation ends in a [TypeError], and reading or writing [apiKey]
    and reading [options] never fail. *)
Theorem failures_are_classified (st : State) (op : Op) (e : Error) :
  reachable sdk st →
  error_of sdk op st = Some e →
  ((∃ p, e = ExternalError p) ∨
   (∃ message, own_message op = Some message ∧ e = LocalError message)) ∧
  op ≠ GetApiKey ∧ (∀ v, op ≠ SetApiKey v) ∧ op ≠ GetOptions.
Proof.
  intros Hr. destruct (reachable_consistent _ _ Hr) as [g [Hg Hc Hs]].
  destruct st as [[h n] [k o g' m c s]]; simpl in *. subst g'.
  unfold error_of.
  destruct op; simpl; run_ops; intros; simplify_eq/=.
  all: use_inv; destruct_and?.
  all: try match goal with H : is_Some _ |- _ => destruct H; congruence end.
  all: split_and!; try done; eauto.
Qed.

End Construction.

(** ** More on the chat session *)

Section Chatting.

Context (sdk : Sdk).

(** X7.  On an instance whose session slot is filled, [chatMessage] and
    [chatMessageStream] leave behind the state they found plus exactly one
    call, [sendMessage] respectively [sendMessageStream] on the cached
    chat with the caller's message, and deliver what that call delivered:
    its value, or its failure unchanged. *)
Theorem chat_messages_go_to_the_cached_chat
    (st : State) (s : Session) (message : JsVal) :
  reachable sdk st →
  _session (this st) = Some s →
  ∃ ch, sess_chat s = Some ch ∧
    async (chatMessage sdk message) st
    = (issue (SendMessage ch message) st,
       answer sdk (history (world st)) (SendMessage ch message)) ∧
    async (chatMessageStream sdk message) st
    = (issue (SendMessageStream ch message) st,
       answer sdk (history (world st)) (SendMessageStream ch message)).
Proof.
  intros Hr Hs. destruct (reachable_consistent _ _ Hr) as [g [Hg Hc Hinv]].
  destruct (Hinv s Hs) as ([ch Hch] & Hcs & _).
  exists ch. split; [done |].
  destruct st as [[h n] [k o g' m c s0]]; simpl in *. subst g' s0.
  rewrite Hch in Hcs. subst c. destruct s as [sc sid]; simpl in *. subst sc.
  unfold answer, issue. split; by run_ops.
Qed.

(** X8.  The first read of [chatSession] on an instance that holds no
    chat calls [chats.create] on the client, and if that throws nothing
    else has happened.  Otherwise it calls [chats.create] a second time:
    if this one throws, the instance keeps the first chat and an empty
    slot; if not, the second chat, not the first, is cached, paired with
    the next identifier drawn, and returned. *)
Theorem first_session_read (st : State) :
  reachable sdk st →
  chat (this st) = None →
  ∃ g, _genai (this st) = Some g ∧
    let h := history (world st) in
    let c := ChatsCreate (genai_ref g) (_modelVariant (this st)) in
    let made r := {| chat_ref := r; chat_client := genai_ref g;
                     chat_model := _modelVariant (this st) |} in
    match throws sdk h c, throws sdk (h ++ [c]) c with
    | Some e, _ => chatSession sdk st = (issue c st, Throw (ExternalError e))
    | None, Some e =>
        chatSession sdk st
        = ({| world := world (issue c (issue c st));
              this := set_chat_field (Some (made (length h))) (this st) |},
           Throw (ExternalError e))
    | None, None =>
        let s := {| sess_chat := Some (made (S (length h)));
                    sess_id := randomUUID sdk (drawn (world st)) |} in
        chatSession sdk st
        = ({| world := {| history := h ++ [c; c]; drawn := S (drawn (world st)) |};
              this := set_session_field (Some s)
                        (set_chat_field (sess_chat s) (this st)) |},
           Normal s)
    end.
Proof.
  intros Hr Hchat. destruct (reachable_consistent _ _ Hr) as [g [Hg Hc Hinv]].
  exists g. split; [done |].
  destruct st as [[h n] [k o g' m c s0]]; simpl in *. subst g' c.
  destruct s0 as [s |].
  { destruct (Hinv s eq_refl) as ([ch Hch] & Hcs & _). congruence. }
  unfold issue. run_ops; rewrite ?length_app, <- ?app_assoc; simpl;
    rewrite ?Nat.add_1_r; done.
Qed.

(** X9.  A read of [chatSession] on an instance that holds a chat but
    whose slot is empty (the state a read that failed in its second
    [chats.create] leaves) is [createChatSession]: one [chats.create],
    whose exception it throws, leaving the instance as it was, or whose
    chat it stores in both fields, paired with the next identifier drawn. *)
Theorem session_read_after_failed_read (st : State) (ch : Chat) :
  reachable sdk st →
  chat (this st) = Some ch →
  _session (this st) = None →
  chatSession sdk st = createChatSession sdk st ∧
  ∃ g, _genai (this st) = Some g ∧
    let h := history (world st) in
    let c := ChatsCreate (genai_ref g) (_modelVariant (this st)) in
    match throws sdk h c with
    | Some e => chatSession sdk st = (issue c st, Throw (ExternalError e))
    | None =>
        let s := {| sess_chat := Some {| chat_ref := length h;
                                         chat_client := genai_ref g;
                                         chat_model := _modelVariant (this st) |};
                    sess_id := randomUUID sdk (drawn (world st)) |} in
        chatSession sdk st
        = ({| world := {| history := h ++ [c]; drawn := S (drawn (world st)) |};
              this := set_session_field (Some s)
                        (set_chat_field (sess_chat s) (this st)) |},
           Normal s)
    end.
Proof.
  intros Hr Hchat Hs. destruct (reachable_consistent _ _ Hr) as [g [Hg Hc Hinv]].
  destruct st as [[h n] [k o g' m c s0]]; simpl in *. subst g' c s0.
  split.
  - by run_ops.
  - exists g. split; [done |]. unfold issue. by run_ops.
Qed.

End Chatting.

(** ** The model on the wire, and the identity of sessions *)

Section Wire.

Context (sdk : Sdk).

Lemma born_model_kept st0 : born sdk st0 → model_kept st0.
Proof.
  intros (k & o & c & m & w & Hnew). destruct st0 as [w0 i0]; simpl in *.
  rewrite constructor_outcome in Hnew. simpl in Hnew.
  destruct (throws sdk _ _); simplify_eq. by intros ch.
Qed.

Lemma step_model_kept g op st :
  consistent sdk g st → model_kept st → model_kept (step sdk op st).
Proof.
  intros [Hg Hc Hs] Hm. unfold model_kept in *.
  destruct st as [[h n] [k o g' m c s]]; simpl in *. subst g'.
  destruct op; run_ops; intros; simplify_eq; eauto.
Qed.

Lemma lifetime_model_kept g st0 st :
  consistent sdk g st0 → model_kept st0 → lifetime sdk st0 st → model_kept st.
Proof.
  intros Hc0 Hm0 Hl.
  induction Hl as [| op st Hl IH | calls n st Hl IH]; [done | | done].
  eapply step_model_kept; [| done]. eauto using lifetime_consistent.
Qed.

(** X10.  Every call an instance issues that names a model (the seven
    calls on the model-operations interface, [chats.create], and the
    messages, through the chat they go to) names the model the instance
    was constructed with, in every state of its life. *)
Theorem calls_name_the_configured_model (st0 st : State) (op : Op) :
  born sdk st0 → lifetime sdk st0 st →
  ∃ issued : list Call,
    history (world (step sdk op st)) = history (world st) ++ issued ∧
    Forall (λ c, ∀ m, call_model c = Some m → m = _modelVariant (this st0)) issued.
Proof.
  intros Hb Hl. destruct (born_consistent _ _ Hb) as [g H0].
  pose proof (lifetime_consistent _ _ _ _ H0 Hl) as [Hg Hc Hs].
  pose proof (lifetime_model_kept _ _ _ H0 (born_model_kept _ Hb) Hl) as Hm.
  destruct (lifetime_options sdk st0 st Hl) as [_ <-].
  unfold model_kept in Hm.
  destruct st as [[h n] [k o g' m c s]]; simpl in *. subst g'.
  destruct op; run_ops.
  all: first
    [ by exists []; rewrite app_nil_r
    | eexists; split; [by rewrite <- ?app_assoc |];
      use_inv; destruct_and?; simplify_eq;
      repeat constructor; simpl; intros; simplify_eq; eauto; congruence ].
Qed.

(** What one operation does to a filled slot: it keeps the pair, or it
    stores a pair whose identifier is the next one drawn. *)
Lemma step_session g op st s :
  consistent sdk g st → _session (this st) = Some s →
  _session (this (step sdk op st)) = Some s ∨
  ∃ s', _session (this (step sdk op st)) = Some s' ∧
        sess_id s' = randomUUID sdk (drawn (world st)) ∧
        drawn (world (step sdk op st)) = S (drawn (world st)).
Proof.
  intros [Hg Hc Hs] Hslot.
  destruct st as [[h n] [k o g' m c s0]]; simpl in *. subst g' s0.
  destruct op; run_ops; use_inv; destruct_and?; eauto.
  all: try match goal with H : is_Some _ |- _ => destruct H; congruence end.
Qed.

Lemma lifetime_draws st0 st :
  lifetime sdk st0 st → drawn (world st0) ≤ drawn (world st).
Proof.
  induction 1 as [| op st Hl IH | calls n st Hl IH]; [done | | simpl; lia].
  pose proof (step_draws sdk op st). lia.
Qed.

(** X11.  Identifiers tell sessions apart: if an instance's slot holds
    the pair [s] at one point of its life and the pair [s'] at a later
    one, and the two identifiers are equal, then [s'] is [s], chat handle
    included: no session created in between reuses the identifier of an
    earlier one (identifiers drawn from [crypto.randomUUID] being pairwise
    distinct). *)
Theorem session_identifier_identifies_session (st st' : State) (s s' : Session) :
  reachable sdk st →
  lifetime sdk st st' →
  (∀ i j, randomUUID sdk i = randomUUID sdk j → i = j) →
  _session (this st) = Some s →
  _session (this st') = Some s' →
  sess_id s' = sess_id s →
  s' = s.
Proof.
  intros Hr Hl Hfresh Hs Hs' Hid.
  destruct (reachable_consistent _ _ Hr) as [g Hinv].
  assert (_session (this st') = Some s ∨
          ∃ s'' j, _session (this st') = Some s'' ∧
                   sess_id s'' = randomUUID sdk j ∧ drawn (world st) ≤ j) as Hcase.
  { clear Hs' Hid s'.
    induction Hl as [| op st1 Hl IH | calls n st1 Hl IH]; [by left | | done].
    pose proof (lifetime_consistent _ _ _ _ Hinv Hl) as Hinv1.
    pose proof (lifetime_draws _ _ Hl) as Hle.
    destruct IH as [IH | (s1 & j & IH & Hj & Hlt)].
    - destruct (step_session g op st1 s Hinv1 IH) as [? | (s2 & ? & ? & ?)];
        [by left | right]. exists s2, (drawn (world st1)). by split_and!.
    - destruct (step_session g op st1 s1 Hinv1 IH) as [? | (s2 & ? & ? & ?)];
        right; [exists s1, j | exists s2, (drawn (world st1))]; by split_and!. }
  destruct Hcase as [Hsame | (s'' & j & Hslot & Hj & Hle)]; [congruence |].
  destruct Hinv as [_ _ Hi]. destruct (Hi s Hs) as (_ & _ & i & Hlt & Hi').
  assert (s'' = s') as -> by congruence.
  rewrite Hj, Hi' in Hid. apply Hfresh in Hid. lia.
Qed.

End Wire.

(** ** The earlier forms of the class *)

Section Versions.

Context (sdk : Sdk).

(** X12.  The present class extends the earlier ones conservatively.  On
    any state, each of the seven generation operations, the accessors
    [apiKey], [models] and [options] and the setter do to the four fields
    and to the SDK exactly what the same operation of the earlier class
    does, with the same result, the oldest [generateContent] being the
    present one at a string; they leave the chat and the session slot
    alone; and the two constructors issue the same call and build the same
    four fields. *)
Theorem earlier_class_is_preserved (st : State) :
  (∀ op old,
     Earlier.body_of sdk op = Some old →
     ∃ new, body_of sdk op = Some new ∧
       agree (Earlier.async old (earlier st)) (async new st) ∧
       chat (this (async new st).1) = chat (this st) ∧
       _session (this (async new st).1) = _session (this st)) ∧
  (∀ prompt config,
     agree (Earlier.async (Earlier.generateContent_prompt sdk prompt config) (earlier st))
           (async (generateContent sdk (JStr prompt) config) st)) ∧
  agree (Earlier.get_apiKey (earlier st)) (get_apiKey st) ∧
  (∀ v, agree (Earlier.set_apiKey v (earlier st)) (set_apiKey v st)) ∧
  agree (Earlier.models sdk (earlier st)) (models sdk st) ∧
  agree (Earlier.options (earlier st)) (options st) ∧
  (∀ apiKey opts genai modelVariant w,
     Earlier.constructor sdk apiKey opts genai modelVariant w
     = match constructor sdk apiKey opts genai modelVariant w with
       | (w', Normal i) => (w', Normal (earlier_fields i))
       | (w', Throw e) => (w', Throw e)
       end).
Proof.
  destruct st as [[h n] [[| a k] o [g |] m c s]].
  all: split_and!.
  all: try (intros op old Hold;
            destruct op; simplify_eq/=; eexists; (split; [done |]);
            open_earlier; split_and!; run_ops; congruence).
  all: try (intros prompt config; open_earlier; run_ops; congruence).
  all: try done.
  all: try (open_earlier; run_ops; congruence).
  all: intros; unfold Earlier.constructor, constructor; open_earlier; by run_ops.
Qed.

End Versions.

(** ** The first message *)

Section FirstMessage.

Context (sdk : Sdk).

(** X13.  [chatMessage] on an instance that holds no chat first opens the
    session, with the two [chats.create] of the first read.  If one of
    them throws, the operation rejects with that exception and no message
    is sent.  Otherwise exactly one [sendMessage] follows, on the second
    chat, the one now cached, and the operation delivers what it
    delivered. *)
Theorem first_chat_message (st : State) (message : JsVal) :
  reachable sdk st →
  chat (this st) = None →
  ∃ g, _genai (this st) = Some g ∧
    let h := history (world st) in
    let c := ChatsCreate (genai_ref g) (_modelVariant (this st)) in
    let ch := {| chat_ref := S (length h); chat_client := genai_ref g;
                 chat_model := _modelVariant (this st) |} in
    let sent := async (chatMessage sdk message) st in
    match throws sdk h c, throws sdk (h ++ [c]) c with
    | None, None =>
        history (world sent.1) = h ++ [c; c; SendMessage ch message] ∧
        sent.2 = answer sdk (h ++ [c; c]) (SendMessage ch message) ∧
        _session (this sent.1)
        = Some {| sess_chat := Some ch;
                  sess_id := randomUUID sdk (drawn (world st)) |}
    | Some e, _ | None, Some e =>
        sent = ((chatSession sdk st).1, Rejected (ExternalError e)) ∧
        _session (this sent.1) = None
    end.
Proof.
  intros Hr Hchat. destruct (reachable_consistent _ _ Hr) as [g [Hg Hc Hinv]].
  exists g. split; [done |].
  destruct st as [[h n] [k o g' m c s0]]; simpl in *. subst g' c.
  destruct s0 as [s |].
  { destruct (Hinv s eq_refl) as ([ch Hch] & Hcs & _). congruence. }
  unfold answer. run_ops; rewrite ?length_app, <- ?app_assoc in *; simpl in *;
    rewrite ?Nat.add_1_r in *; split_and?; congruence.
Qed.

End FirstMessage.

(** ** The further theorems at the sample instances *)

Lemma demo_born_flaky : born flaky demo.
Proof. exists "k1", None, None, None, dawn. reflexivity. Qed.

Lemma half_open_reachable : reachable flaky half_open.
Proof. exists demo. split; [apply demo_born_flaky | do 2 constructor]. Qed.




Lemma models_reads_the_client_witness :
  ∃ g, _genai (this unset) = Some g ∧
       models obliging unset = (unset, Throw (LocalError "API key is not set.")).
Proof.
  destruct (models_reads_the_client obliging unset (after_demo_reachable _))
    as (g & Hg & Hrun).
  exists g. split; [exact Hg | exact Hrun].
Defined.

Lemma failures_are_classified_witness :
  error_of barren (UploadFile (JStr "a.txt") JUndefined) demo
  = Some (LocalError "Upload failed") ∧
  ((∃ p, LocalError "Upload failed" = ExternalError p) ∨
   (∃ message, own_message (UploadFile (JStr "a.txt") JUndefined) = Some message ∧
               LocalError "Upload failed" = LocalError message)).
Proof.
  split; [reflexivity |].
  apply (failures_are_classified barren demo
           (UploadFile (JStr "a.txt") JUndefined)
           (LocalError "Upload failed") demo_reachable_barren eq_refl).
Defined.

Lemma chat_messages_go_to_the_cached_chat_witness :
  ∃ ch, sess_chat first_session = Some ch ∧
    async (chatMessage obliging (JStr "hello")) chatting
    = (issue (SendMessage ch (JStr "hello")) chatting, Fulfilled (JObj 3)).
Proof.
  destruct (chat_messages_go_to_the_cached_chat obliging chatting first_session
              (JStr "hello") (after_demo_reachable _) eq_refl)
    as (ch & Hch & Hsend & _).
  exists ch. split; [exact Hch |]. injection Hch as <-. exact Hsend.
Defined.

Lemma first_session_read_witness :
  chatSession obliging demo = (chatting, Normal first_session).
Proof.
  destruct (first_session_read obliging demo demo_reachable eq_refl)
    as (g & Hg & Hrun).
  injection Hg as <-. exact Hrun.
Defined.

Lemma session_read_after_failed_read_witness :
  chat (this half_open)
  = Some {| chat_ref := 1; chat_client := 0; chat_model := gemini_1_5_flash |} ∧
  _session (this half_open) = None ∧
  chatSession flaky half_open = createChatSession flaky half_open.
Proof.
  split_and!; [reflexivity | reflexivity |].
  apply (session_read_after_failed_read flaky half_open
           {| chat_ref := 1; chat_client := 0; chat_model := gemini_1_5_flash |}
           half_open_reachable eq_refl eq_refl).
Defined.

Lemma calls_name_the_configured_model_witness :
  ∃ issued : list Call,
    history (world (step obliging (ChatMessage (JStr "hello")) chatting))
    = history (world chatting) ++ issued ∧
    Forall (λ c, ∀ m, call_model c = Some m → m = gemini_1_5_flash) issued.
Proof.
  apply (calls_name_the_configured_model obliging demo chatting
           (ChatMessage (JStr "hello")) demo_born).
  apply life_step, life_start.
Defined.

Lemma session_identifier_identifies_session_witness :
  _session (this chatting) = Some first_session ∧
  _session (this (step obliging (ChatMessage (JStr "hello")) chatting))
  = Some first_session ∧
  first_session = first_session.
Proof.
  split_and!; [reflexivity | reflexivity |].
  apply (session_identifier_identifies_session obliging chatting
           (step obliging (ChatMessage (JStr "hello")) chatting)
           first_session first_session).
  - apply after_demo_reachable.
  - apply life_step, life_start.
  - apply obliging_draws_fresh.
  - reflexivity.
  - reflexivity.
  - reflexivity.
Defined.

Lemma earlier_class_is_preserved_witness :
  agree (Earlier.async (Earlier.generateContent_prompt obliging "What is AI?" JUndefined)
                       (earlier demo))
        (async (generateContent obliging (JStr "What is AI?") JUndefined) demo).
Proof.
  destruct (earlier_class_is_preserved obliging demo) as (_ & Hprompt & _).
  apply Hprompt.
Defined.

Lemma first_chat_message_witness :
  history (world (async (chatMessage obliging (JStr "hello")) demo).1)
  = history (world demo)
    ++ [ChatsCreate 0 gemini_1_5_flash; ChatsCreate 0 gemini_1_5_flash;
        SendMessage {| chat_ref := 2; chat_client := 0; chat_model := gemini_1_5_flash |}
                    (JStr "hello")].
Proof.
  destruct (first_chat_message obliging demo (JStr "hello") demo_reachable eq_refl)
    as (g & Hg & Hrun).
  injection Hg as <-. apply Hrun.
Defined.
